(** * Shallow embedding of the loss-module benchmark scripts

    Sources: [bench_loss_module_hgbt.py] and [bench_loss_module_logistic.py].
    Both scripts build a lazy sequence of tagged deferred [fit] calls
    ([benchmark_cases]), hand it to a [Benchmark] runner twice (binary and
    multiclass data), add bookkeeping columns and save the concatenation. *)

From Stdlib Require Import List String ZArith Lia Reals Lra Sorted.
Import ListNotations.
Open Scope string_scope.
Open Scope list_scope.

(** ** The sample-size grid

    [np.logspace(np.log10(n_samples/1e3), np.log10(n_samples), 4).astype('int')],
    with the real-number meaning of each numpy operation (rounding of the
    floating-point evaluation is not modelled). *)
Module Grid.
Local Open Scope R_scope.

(** [np.log10] *)
Definition log10 (x : R) : R := ln x / ln 10.

(** [np.linspace(start, stop, num)[i]]: [start + i * (stop - start) / (num - 1)]. *)
Definition linspace_at (start stop : R) (num i : nat) : R :=
  start + INR i * ((stop - start) / INR (num - 1)).

(** [np.logspace(start, stop, num)[i] = 10 ** linspace(start, stop, num)[i]]. *)
Definition logspace_at (start stop : R) (num i : nat) : R :=
  Rpower 10 (linspace_at start stop num i).

(** [.astype('int')]: truncation toward zero. *)
Definition trunc (x : R) : Z :=
  if Rle_dec 0 x then Int_part x else (- Int_part (- x))%Z.

(** The outer loop's iterable of [benchmark_cases] for a given [n_samples]. *)
Definition grid_Ns (n_samples : Z) : list Z :=
  map (fun i => trunc (logspace_at (log10 (IZR n_samples / 1000))
                                   (log10 (IZR n_samples)) 4 i))
      (seq 0 4).

End Grid.

(** ** [benchmark_cases]: a Python generator of tagged deferred calls

    The two scripts share the same generator body and differ in the tag
    name of the variant, the variant values and the estimator built. *)
Module Gen.

(** Tag and keyword-argument values: numpy ints, bools and strings. *)
Inductive value :=
| VInt (z : Z)
| VBool (b : bool)
| VStr (s : string).

(** [OrderedDict(N=N, <variant_key>=v)]: an ordered key/value list. *)
Definition tags := list (string * value).

(** Observable effects on the Python heap: constructing an estimator
    object and calling its [fit] method on [n_rows] rows. *)
Inductive event :=
| EConstruct (id : nat) (cls : string) (params : list (string * value))
| EFit (id : nat) (n_rows : nat).

Record store := mkStore { next_id : nat; log : list event }.

(** [clf = Cls( **params)]: a fresh object, recorded in the log. *)
Definition construct (st : store) (cls : string) (params : list (string * value))
  : store * nat :=
  (mkStore (S (next_id st)) (log st ++ [EConstruct (next_id st) cls params]),
   next_id st).

(** [X[:N]] (and [X[:N, :]] on the rows): Python prefix slicing, a negative
    bound counting from the end. *)
Definition py_prefix {A : Type} (N : Z) (l : list A) : list A :=
  if (0 <=? N)%Z then firstn (Z.to_nat N) l
  else firstn (Z.to_nat (Z.of_nat (List.length l) + N)) l.

(** [delayed(clf.fit, tags=tags)(X[:N, :], y[:N])]: the bound method of the
    object [d_target], its tags and its bound arguments. *)
Record delayed (Row Label : Type) := mkDelayed {
  d_target : nat;
  d_tags : tags;
  d_X : list Row;
  d_y : list Label
}.
Arguments mkDelayed {Row Label}.
Arguments d_target {Row Label}.
Arguments d_tags {Row Label}.
Arguments d_X {Row Label}.
Arguments d_y {Row Label}.

(** What distinguishes the two scripts' [benchmark_cases]. *)
Record script_cfg := mkCfg {
  variant_key : string;                          (* tag name of the variant *)
  variants : list value;                         (* inner loop iterable *)
  est_cls : string;                              (* estimator class *)
  est_params : value -> list (string * value)    (* constructor keywords *)
}.

(** [early_stopping = [True, False]]; [options = {}];
    [HistGradientBoostingClassifier( **options)]. *)
Definition hgbt_cfg : script_cfg :=
  mkCfg "early_stopping" [VBool true; VBool false]
        "HistGradientBoostingClassifier" (fun _ => []).


(** [n_samples = 100_000] in both scripts. *)
Definition n_samples : Z := 100000.

(** The suspension points of the generator frame. *)
Inductive frame :=
| Start                                             (* created, body not entered *)
| Inner (N : Z) (inner_rest : list value) (outer_rest : list Z)  (* at [yield] *)
| Finished.

Record generator (Row Label : Type) := mkGen {
  g_X : list Row;
  g_y : list Label;
  g_frame : frame
}.
Arguments mkGen {Row Label}.
Arguments g_X {Row Label}.
Arguments g_y {Row Label}.
Arguments g_frame {Row Label}.

Section Cases.
Context (cfg : script_cfg) (grid : list Z) {Row Label : Type}.

(** Entering the next iteration of [for N in grid: for v in variants:]. *)
Fixpoint outer_loop (outer : list Z) : option (Z * value * frame) :=
  match outer with
  | [] => None
  | N :: outer' =>
      match variants cfg with
      | v :: inner => Some (N, v, Inner N inner outer')
      | [] => outer_loop outer'
      end
  end.

(** From a suspension point to the loop variables of the next body run. *)
Definition resume (f : frame) : option (Z * value * frame) :=
  match f with
  | Start => outer_loop grid
  | Inner N (v :: inner) outer => Some (N, v, Inner N inner outer)
  | Inner _ [] outer => outer_loop outer
  | Finished => None
  end.

(** [benchmark_cases(X, y)]: calling a generator function only creates the
    generator; its body does not run. *)
Definition benchmark_cases (X : list Row) (y : list Label) : generator Row Label :=
  mkGen X y Start.

(** [next(gen)]: run the body up to the next [yield] (or [StopIteration]). *)
Definition gen_next (st : store) (g : generator Row Label)
  : store * option (delayed Row Label) * generator Row Label :=
  match resume (g_frame g) with
  | None => (st, None, mkGen (g_X g) (g_y g) Finished)
  | Some (N, v, f') =>
      let tg := [("N", VInt N); (variant_key cfg, v)] in
      let '(st', clf) := construct st (est_cls cfg) (est_params cfg v) in
      (st', Some (mkDelayed clf tg (py_prefix N (g_X g)) (py_prefix N (g_y g))),
       mkGen (g_X g) (g_y g) f')
  end.

(** [k] requests of the consumer, stopping at [StopIteration]. *)
Fixpoint drive (st : store) (g : generator Row Label) (k : nat)
  : store * list (delayed Row Label) * generator Row Label :=
  match k with
  | 0 => (st, [], g)
  | S k' =>
      match gen_next st g with
      | (st', Some u, g') =>
          let '(st'', us, g'') := drive st' g' k' in (st'', u :: us, g'')
      | (st', None, g') => (st', [], g')
      end
  end.

(** Number of [yield]s still ahead of a suspension point. *)
Definition remaining (f : frame) : nat :=
  match f with
  | Start => List.length grid * List.length (variants cfg)
  | Inner _ inner outer => List.length inner + List.length outer * List.length (variants cfg)
  | Finished => 0
  end.

(** Suspension points reachable from [Start]: the loop variables come from
    the loops' iterables. *)
Definition frame_ok (f : frame) : Prop :=
  match f with
  | Inner N inner outer => In N grid /\ incl inner (variants cfg) /\ incl outer grid
  | _ => True
  end.

End Cases.

(** Calling a deferred unit: [clf.fit(X[:N, :], y[:N])] on the bound object. *)
Definition invoke {Row Label} (st : store) (u : delayed Row Label) : store :=
  mkStore (next_id st) (log st ++ [EFit (d_target u) (List.length (d_X u))]).

(** [r] successive calls of one deferred unit object. *)
Fixpoint invoke_n {Row Label} (st : store) (u : delayed Row Label) (r : nat) : store :=
  match r with
  | 0 => st
  | S r' => invoke_n (invoke st u) u r'
  end.

(** The grid both scripts iterate over. *)
Definition script_grid : list Z := Grid.grid_Ns n_samples.

End Gen.

(** ** The top-level statements of the two scripts

    A small statement language over the interpreter state: variables, the
    DataFrame objects, the global OpenMP thread-pool configuration and a
    trace of observable effects. The benchmark run itself is one statement
    whose result is a new DataFrame. *)
Module Script.

Inductive pyval :=
| PInt (z : Z)
| PBool (b : bool)
| PStr (s : string)
| PData (n_classes : Z)          (* the (X, y) pair of [make_classification] *)
| PBenchmark                     (* a [Benchmark( **bench_options)] object *)
| PTime                          (* a [time.time()] reading *)
| PTable (id : nat).             (* a pandas DataFrame object *)

(** Where a DataFrame comes from, and the scalar columns the script assigns. *)
Inductive origin :=
| FromBench (run : nat)
| FromConcat (parts : list nat).

Record table := mkTable { t_origin : origin; t_cols : list (string * pyval) }.

Inductive event :=
| QueryOmpEnabled                (* [_openmp_parallelism_enabled()] *)
| QueryOmpThreads                (* [_openmp_effective_n_threads()] *)
| Printed (args : list pyval)
| MakeData (n_classes : Z)
| NewTable (id : nat)
| SetColumn (id : nat) (col : string)
| WriteParquet (path : string) (id : nat)
| SetThreads (n : Z).

Record state := mkState {
  env : list (string * pyval);
  tables : list (nat * table);
  next_table : nat;
  bench_runs : nat;
  omp_threads : Z;               (* global OpenMP thread-pool configuration *)
  trace : list event
}.

(** A fresh interpreter whose OpenMP runtime reports [omp] threads. *)
Definition init_state (omp : Z) : state := mkState [] [] 0 0 omp [].

Inductive expr :=
| EVar (x : string)
| EConst (v : pyval)
| EOmpEnabled                    (* [_openmp_parallelism_enabled()] *)
| EOmpThreads.                   (* [_openmp_effective_n_threads()] *)

Inductive stmt :=
| SPrint (args : list expr)                 (* [print(a, b, ...)] *)
| SAssign (x : string) (e : expr)           (* [x = e] *)
| SMakeClassification (nc : expr)           (* [X, y = make_classification(..., n_classes=nc)] *)
| SNewBenchmark (x : string)                (* [x = Benchmark( **bench_options)] *)
| SBench (x : string)                       (* [x = bench(benchmark_cases(X, y))] *)
| STime (x : string)                        (* [x = time.time()] *)
| SSetColumn (x col : string) (e : expr)    (* [x[col] = e] *)
| SConcat (x : string) (parts : list string) (* [x = pd.concat([...])] *)
| SToParquet (x path : string)              (* [x.to_parquet(path)] *)
| SSetThreads (n : Z).                      (* reconfiguring the OpenMP pool
                                               (e.g. [threadpool_limits(n)]) *)

Fixpoint lookup {A : Type} (x : string) (l : list (string * A)) : option A :=
  match l with
  | [] => None
  | (k, v) :: l' => if String.eqb k x then Some v else lookup x l'
  end.

Fixpoint lookup_tbl (id : nat) (l : list (nat * table)) : option table :=
  match l with
  | [] => None
  | (k, t) :: l' => if Nat.eqb k id then Some t else lookup_tbl id l'
  end.

(** Python assignment into a dict-like mapping: overwrite or add. *)
Fixpoint assign {A : Type} (x : string) (v : A) (l : list (string * A)) : list (string * A) :=
  match l with
  | [] => [(x, v)]
  | (k, w) :: l' => if String.eqb k x then (k, v) :: l' else (k, w) :: assign x v l'
  end.

Fixpoint update_tbl (id : nat) (f : table -> table) (l : list (nat * table)) : list (nat * table) :=
  match l with
  | [] => []
  | (k, t) :: l' => if Nat.eqb k id then (k, f t) :: l' else (k, t) :: update_tbl id f l'
  end.

Definition emit (st : state) (e : event) : state :=
  mkState (env st) (tables st) (next_table st) (bench_runs st) (omp_threads st)
          (trace st ++ [e]).

Definition set_env (st : state) (x : string) (v : pyval) : state :=
  mkState (assign x v (env st)) (tables st) (next_table st) (bench_runs st)
          (omp_threads st) (trace st).

Definition eval (st : state) (e : expr) : option (pyval * state) :=
  match e with
  | EVar x => option_map (fun v => (v, st)) (lookup x (env st))
  | EConst v => Some (v, st)
  | EOmpEnabled => Some (PBool true, emit st QueryOmpEnabled)
  | EOmpThreads => Some (PInt (omp_threads st), emit st QueryOmpThreads)
  end.

Fixpoint eval_list (st : state) (es : list expr) : option (list pyval * state) :=
  match es with
  | [] => Some ([], st)
  | e :: es' =>
      match eval st e with
      | Some (v, st1) =>
          match eval_list st1 es' with
          | Some (vs, st2) => Some (v :: vs, st2)
          | None => None
          end
      | None => None
      end
  end.

(** A new DataFrame object bound to [x]. *)
Definition new_table (st : state) (x : string) (o : origin) : state :=
  let id := next_table st in
  mkState (assign x (PTable id) (env st)) ((id, mkTable o []) :: tables st)
          (S id) (bench_runs st) (omp_threads st) (trace st ++ [NewTable id]).

Definition table_of (st : state) (x : string) : option nat :=
  match lookup x (env st) with
  | Some (PTable id) => match lookup_tbl id (tables st) with
                        | Some _ => Some id
                        | None => None
                        end
  | _ => None
  end.

Fixpoint tables_of (st : state) (xs : list string) : option (list nat) :=
  match xs with
  | [] => Some []
  | x :: xs' =>
      match table_of st x, tables_of st xs' with
      | Some id, Some ids => Some (id :: ids)
      | _, _ => None
      end
  end.

(** One statement; [None] is a Python error (unbound name, wrong type). *)
Definition exec (st : state) (s : stmt) : option state :=
  match s with
  | SPrint args =>
      match eval_list st args with
      | Some (vs, st1) => Some (emit st1 (Printed vs))
      | None => None
      end
  | SAssign x e =>
      match eval st e with
      | Some (v, st1) => Some (set_env st1 x v)
      | None => None
      end
  | SMakeClassification nc =>
      match eval st nc with
      | Some (PInt n, st1) =>
          Some (emit (set_env st1 "X" (PData n)) (MakeData n))
      | _ => None
      end
  | SNewBenchmark x => Some (set_env st x PBenchmark)
  | SBench x =>
      match lookup "bench" (env st), lookup "X" (env st) with
      | Some PBenchmark, Some (PData _) =>
          let st1 := new_table st x (FromBench (bench_runs st)) in
          Some (mkState (env st1) (tables st1) (next_table st1) (S (bench_runs st1))
                        (omp_threads st1) (trace st1))
      | _, _ => None
      end
  | STime x => Some (set_env st x PTime)
  | SSetColumn x col e =>
      match table_of st x, eval st e with
      | Some id, Some (v, st1) =>
          Some (emit (mkState (env st1)
                   (update_tbl id (fun t => mkTable (t_origin t) (assign col v (t_cols t)))
                      (tables st1))
                   (next_table st1) (bench_runs st1) (omp_threads st1) (trace st1))
                 (SetColumn id col))
      | _, _ => None
      end
  | SConcat x parts =>
      match tables_of st parts with
      | Some ids => Some (new_table st x (FromConcat ids))
      | None => None
      end
  | SToParquet x path =>
      match table_of st x with
      | Some id => Some (emit st (WriteParquet path id))
      | None => None
      end
  | SSetThreads n =>
      Some (emit (mkState (env st) (tables st) (next_table st) (bench_runs st) n (trace st))
                 (SetThreads n))
  end.

Fixpoint run_script (st : state) (ss : list stmt) : option state :=
  match ss with
  | [] => Some st
  | s :: ss' =>
      match exec st s with
      | Some st1 => run_script st1 ss'
      | None => None
      end
  end.

End Script.

(** ** The two scripts, statement by statement *)
Module Scripts.
Import Script.

(** [bench_loss_module_hgbt.py], lines 17-82. *)
Definition hgbt_script : list stmt := [
  SPrint [EConst (PStr "openmp enabled: "); EOmpEnabled];
  SPrint [EConst (PStr "openmp threads: "); EOmpThreads];
  SAssign "n_threads" EOmpThreads;
  (* 1. Binary Histogram Gradient Booster *)
  SAssign "n_classes" (EConst (PInt 2));
  SMakeClassification (EVar "n_classes");
  SNewBenchmark "bench";
  SPrint [EConst (PStr "Run binary histogram gradient booster.")];
  SBench "df_hgbt_binary";
  SSetColumn "df_hgbt_binary" "estimator" (EConst (PStr "HistGradientBoostingClassifier"));
  SSetColumn "df_hgbt_binary" "n_classes" (EVar "n_classes");
  (* 2. Multiclass Histogram Gradient Booster *)
  SAssign "n_classes" (EConst (PInt 10));
  SMakeClassification (EVar "n_classes");
  SNewBenchmark "bench";
  SPrint [EConst (PStr "Run multiclass histogram gradient booster.")];
  SBench "df_hgbt_multi";
  SSetColumn "df_hgbt_multi" "estimator" (EConst (PStr "HistGradientBoostingClassifier"));
  SSetColumn "df_hgbt_multi" "n_classes" (EVar "n_classes");
  (* 3. Save Results *)
  SPrint [EConst (PStr "Save benchmark results from HistGradientBoostingClassifier.")];
  SConcat "df" ["df_hgbt_binary"; "df_hgbt_multi"];
  SSetColumn "df" "n_threads" (EVar "n_threads");
  SToParquet "df" "bench_loss_module_hgbt.parquet"
].

(** [bench_loss_module_logistic.py], the [if __name__ == "__main__":] body. *)
Definition logistic_script : list stmt := [
  SPrint [EConst (PStr "openmp enabled: "); EOmpEnabled];
  SPrint [EConst (PStr "openmp threads: "); EOmpThreads];
  SAssign "n_threads" EOmpThreads;
  (* 1. Binary Logistic Regression *)
  SAssign "n_classes" (EConst (PInt 2));
  SMakeClassification (EVar "n_classes");
  SNewBenchmark "bench";
  SPrint [EConst (PStr "Run binary logistic regression.")];
  STime "start";
  SBench "df_logistic_binary";
  STime "end";
  SPrint [EConst (PStr "Done in (end - start) seconds.")];
  SSetColumn "df_logistic_binary" "estimator" (EConst (PStr "LogisticRegression"));
  SSetColumn "df_logistic_binary" "n_classes" (EVar "n_classes");
  (* 2. Multiclass Logistic Regression *)
  SAssign "n_classes" (EConst (PInt 10));
  SMakeClassification (EVar "n_classes");
  SNewBenchmark "bench";
  SPrint [EConst (PStr "Run multiclass logistic regression.")];
  STime "start";
  SBench "df_logistic_multi";
  STime "end";
  SPrint [EConst (PStr "Done in (end - start) seconds.")];
  SSetColumn "df_logistic_multi" "estimator" (EConst (PStr "LogisticRegression"));
  SSetColumn "df_logistic_multi" "n_classes" (EVar "n_classes");
  (* 3. Save Results *)
  SPrint [EConst (PStr "Save benchmark results from LogisticRegression.")];
  SConcat "df" ["df_logistic_binary"; "df_logistic_multi"];
  SSetColumn "df" "n_threads" (EVar "n_threads");
  SToParquet "df" "bench_loss_module_logistic.parquet"
].

(** Counting the effects of a trace. *)
Definition is_threads_query (e : event) : bool :=
  match e with QueryOmpThreads => true | _ => false end.

Definition is_write (e : event) : bool :=
  match e with WriteParquet _ _ => true | _ => false end.

Definition is_set_threads (e : event) : bool :=
  match e with SetThreads _ => true | _ => false end.

Definition new_table_ids (tr : list event) : list nat :=
  flat_map (fun e => match e with NewTable id => [id] | _ => [] end) tr.

(** A column of the table a DataFrame variable refers to. *)
Definition column_of (st : state) (x col : string) : option pyval :=
  match table_of st x with
  | Some id => match lookup_tbl id (tables st) with
               | Some t => lookup col (t_cols t)
               | None => None
               end
  | None => None
  end.

End Scripts.

(** ** The order of the generator's yields *)
Module Order.
Import Gen.

Section Pairs.
Context (cfg : script_cfg) (grid : list Z).

(** The [(N, v)] loop variables of [for N in outer: for v in variants:]. *)
Definition loop_pairs (outer : list Z) : list (Z * value) :=
  flat_map (fun N => map (fun v => (N, v)) (variants cfg)) outer.

(** The loop variables of the body runs still ahead of a suspension point. *)
Definition yield_pairs (f : frame) : list (Z * value) :=
  match f with
  | Start => loop_pairs grid
  | Inner N inner outer => map (fun v => (N, v)) inner ++ loop_pairs outer
  | Finished => []
  end.

End Pairs.

(** The tags [OrderedDict(N=N, <variant_key>=v)] of a body run. *)
Definition pair_tags (cfg : script_cfg) (p : Z * value) : tags :=
  [("N", VInt (fst p)); (variant_key cfg, snd p)].

End Order.

(** * Properties *)

(** ** The grid values *)
Module GridFacts.
Import Grid.
Local Open Scope R_scope.

Lemma ln10_pos : 0 < ln 10.
Proof. rewrite <- ln_1. apply ln_increasing; lra. Qed.

Lemma Rpower10_log10 (x : R) : 0 < x -> Rpower 10 (log10 x) = x.
Proof.
  intros Hx. unfold Rpower, log10.
  replace (ln x / ln 10 * ln 10) with (ln x)
    by (field; apply Rgt_not_eq, ln10_pos).
  now apply exp_ln.
Qed.

(** The logspace exponents are one decade apart. *)
Lemma log10_decades (n : R) : 0 < n ->
  (log10 n - log10 (n / 1000)) / INR (4 - 1) = 1.
Proof.
  intros Hn.
  assert (H1000 : ln (n / 1000) = ln n - 3 * ln 10).
  { unfold Rdiv. rewrite ln_mult by (try apply Rinv_0_lt_compat; lra).
    rewrite ln_Rinv by lra.
    replace 1000 with (10 ^ 3) by ring.
    rewrite ln_pow by lra. simpl INR. ring. }
  unfold log10. rewrite H1000. simpl INR.
  field. apply Rgt_not_eq, ln10_pos.
Qed.

Lemma logspace_value (n : R) (i : nat) : 0 < n ->
  logspace_at (log10 (n / 1000)) (log10 n) 4 i = n / 1000 * 10 ^ i.
Proof.
  intros Hn. unfold logspace_at, linspace_at.
  rewrite log10_decades by exact Hn. rewrite Rmult_1_r.
  rewrite Rpower_plus, Rpower10_log10 by lra.
  now rewrite Rpower_pow by lra.
Qed.

Lemma Int_part_IZR_id (z : Z) : Int_part (IZR z) = z.
Proof. symmetry. apply Int_part_spec. lra. Qed.

Lemma trunc_IZR (z : Z) : trunc (IZR z) = z.
Proof.
  unfold trunc. destruct (Rle_dec 0 (IZR z)).
  - apply Int_part_IZR_id.
  - rewrite <- opp_IZR, Int_part_IZR_id. lia.
Qed.

Lemma grid_Ns_eq (n : Z) : (0 < n)%Z ->
  grid_Ns n = map (fun i => trunc (IZR n / 1000 * 10 ^ i)) (seq 0 4).
Proof.
  intros Hn. unfold grid_Ns. apply map_ext. intros i.
  rewrite logspace_value; [reflexivity|]. now apply IZR_lt.
Qed.

(** Every grid value lies in [1, n_samples] once [n_samples >= 1000]. *)
Lemma grid_Ns_bounds (n N : Z) : (1000 <= n)%Z -> In N (grid_Ns n) -> (1 <= N <= n)%Z.
Proof.
  intros Hn HN. rewrite grid_Ns_eq in HN by lia.
  apply in_map_iff in HN as [i [<- Hi]].
  apply IZR_le in Hn.
  assert (Hx : 1 <= IZR n / 1000 * 10 ^ i <= IZR n).
  { apply in_seq in Hi.
    destruct i as [|[|[|[|i]]]]; simpl; try lia; split; lra. }
  unfold trunc. destruct (Rle_dec 0 (IZR n / 1000 * 10 ^ i)) as [_|Hneg]; [|lra].
  destruct (base_Int_part (IZR n / 1000 * 10 ^ i)) as [Hle Hgt].
  split.
  - cut (0 < Int_part (IZR n / 1000 * 10 ^ i))%Z; [lia|].
    apply lt_IZR. lra.
  - apply le_IZR. lra.
Qed.

(** The values for the scripts' [n_samples = 100_000]. *)
Lemma grid_Ns_100000 : grid_Ns 100000 = [100; 1000; 10000; 100000]%Z.
Proof.
  rewrite grid_Ns_eq by lia. simpl.
  repeat f_equal;
    match goal with |- trunc ?x = ?z =>
      replace x with (IZR z) by (simpl; lra); apply trunc_IZR end.
Qed.

End GridFacts.

(** ** The generator *)
Module GenFacts.
Import Gen.

Section Facts.
Context (cfg : script_cfg) (grid : list Z) {Row Label : Type}.

Lemma outer_loop_step (outer : list Z) :
  match outer_loop cfg outer with
  | Some (N, v, f') =>
      In N outer /\ In v (variants cfg) /\
      (incl outer grid -> frame_ok cfg grid f') /\
      remaining cfg grid f' = pred (List.length outer * List.length (variants cfg)) /\
      0 < List.length outer * List.length (variants cfg)
  | None => List.length outer * List.length (variants cfg) = 0
  end.
Proof.
  induction outer as [|N outer IH]; simpl; [reflexivity|].
  destruct (variants cfg) as [|v inner] eqn:Ev.
  - rewrite Nat.mul_0_r. destruct (outer_loop cfg outer) as [[[N' v'] f']|].
    + destruct IH as (HN & Hv & _ & _ & Hpos). rewrite Nat.mul_0_r in Hpos. lia.
    + reflexivity.
  - split; [now left|]. split; [now left|]. split; [|simpl; rewrite Ev; simpl; lia].
    intros Hincl. simpl. split; [|split].
    + apply Hincl. now left.
    + intros x Hx. rewrite Ev. now right.
    + intros x Hx. apply Hincl. now right.
Qed.

Lemma resume_step (f : frame) :
  frame_ok cfg grid f ->
  match resume cfg grid f with
  | Some (N, v, f') =>
      In N grid /\ In v (variants cfg) /\ frame_ok cfg grid f' /\
      remaining cfg grid f = S (remaining cfg grid f')
  | None => remaining cfg grid f = 0
  end.
Proof.
  intros Hok. destruct f as [|N inner outer|]; simpl.
  - pose proof (outer_loop_step grid) as H.
    destruct (outer_loop cfg grid) as [[[N v] f']|]; [|exact H].
    destruct H as (HN & Hv & Hf & Hr & Hpos). repeat split; auto.
    + apply Hf. intros x Hx; exact Hx.
    + lia.
  - destruct Hok as (HN & Hinner & Houter). destruct inner as [|v inner].
    + pose proof (outer_loop_step outer) as H.
      destruct (outer_loop cfg outer) as [[[N' v'] f']|]; [|exact H].
      destruct H as (HN' & Hv & Hf & Hr & Hpos). repeat split; auto.
      simpl. lia.
    + repeat split; auto.
      * apply Hinner. now left.
      * intros x Hx. apply Hinner. now right.
  - reflexivity.
Qed.

(** What one [next(gen)] does: at most one construction, and the yielded
    unit is bound to the object just constructed. *)
Lemma gen_next_step (st : store) (g : generator Row Label) :
  frame_ok cfg grid (g_frame g) ->
  match gen_next cfg grid st g with
  | (st', Some u, g') =>
      exists N v,
        In N grid /\ In v (variants cfg) /\
        d_target u = next_id st /\
        d_tags u = [("N", VInt N); (variant_key cfg, v)] /\
        d_X u = py_prefix N (g_X g) /\ d_y u = py_prefix N (g_y g) /\
        st' = mkStore (S (next_id st))
                      (log st ++ [EConstruct (d_target u) (est_cls cfg) (est_params cfg v)]) /\
        g_X g' = g_X g /\ g_y g' = g_y g /\ frame_ok cfg grid (g_frame g') /\
        remaining cfg grid (g_frame g) = S (remaining cfg grid (g_frame g'))
  | (st', None, g') => st' = st /\ remaining cfg grid (g_frame g) = 0
  end.
Proof.
  intros Hok. unfold gen_next.
  pose proof (resume_step (g_frame g) Hok) as H.
  destruct (resume cfg grid (g_frame g)) as [[[N v] f']|].
  - destruct H as (HN & Hv & Hf & Hr). simpl.
    exists N, v. repeat split; auto.
  - split; [reflexivity | exact H].
Qed.

(** [k] requests: the log grows by one construction per yielded unit, the
    [i]-th yielded unit is bound to the [i]-th new object, and the number of
    units is [k] capped by the yields left. *)
Lemma drive_spec (st : store) (g : generator Row Label) (k : nat) :
  frame_ok cfg grid (g_frame g) ->
  let '(st', us, _) := drive cfg grid st g k in
  List.length us = Nat.min k (remaining cfg grid (g_frame g)) /\
  map d_target us = seq (next_id st) (List.length us) /\
  next_id st' = next_id st + List.length us /\
  (exists new, log st' = log st ++ new /\
     Forall2 (fun e u => exists p, e = EConstruct (d_target u) (est_cls cfg) p) new us) /\
  Forall (fun u => exists N v,
            In N grid /\ In v (variants cfg) /\
            d_tags u = [("N", VInt N); (variant_key cfg, v)] /\
            d_X u = py_prefix N (g_X g) /\ d_y u = py_prefix N (g_y g)) us.
Proof.
  revert st g. induction k as [|k IH]; intros st g Hok; simpl.
  - repeat split; auto. exists []. split; [now rewrite app_nil_r | constructor].
  - pose proof (gen_next_step st g Hok) as Hs.
    destruct (gen_next cfg grid st g) as [[st1 [u|]] g1].
    + destruct Hs as (N & v & HN & Hv & Ht & Htg & HX & Hy & Hst1 & HgX & Hgy & Hok1 & Hr).
      specialize (IH st1 g1 Hok1).
      destruct (drive cfg grid st1 g1 k) as [[st2 us] g2].
      destruct IH as (Hlen & Hids & Hnext & (new & Hlog & Hnew) & Hall).
      subst st1. simpl in *.
      repeat split.
      * rewrite Hlen, Hr. reflexivity.
      * rewrite Ht, Hids. reflexivity.
      * rewrite Hnext. lia.
      * exists (EConstruct (d_target u) (est_cls cfg) (est_params cfg v) :: new).
        split; [rewrite Hlog, <- app_assoc; reflexivity|].
        constructor; [eexists; reflexivity | exact Hnew].
      * constructor.
        -- exists N, v. auto.
        -- rewrite HgX, Hgy in Hall. exact Hall.
    + destruct Hs as [-> Hr]. rewrite Hr. simpl.
      repeat split; auto. exists []. split; [now rewrite app_nil_r | constructor].
Qed.

End Facts.

Lemma invoke_n_log {Row Label} (st : store) (u : delayed Row Label) (r : nat) :
  log (invoke_n st u r) = log st ++ repeat (EFit (d_target u) (List.length (d_X u))) r.
Proof.
  revert st. induction r as [|r IH]; intros st; simpl.
  - now rewrite app_nil_r.
  - rewrite IH. simpl. rewrite <- app_assoc. reflexivity.
Qed.

Lemma py_prefix_length {A} (N : Z) (l : list A) :
  (0 <= N)%Z -> Z.to_nat N <= List.length l -> List.length (py_prefix N l) = Z.to_nat N.
Proof.
  intros H0 Hle. unfold py_prefix.
  destruct (Z.leb_spec 0 N); [|lia].
  now apply firstn_length_le.
Qed.

End GenFacts.

(** ** The claims *)
Module Claims.
Import Gen GenFacts.

Lemma script_grid_length : List.length script_grid = 4.
Proof. unfold script_grid, Grid.grid_Ns. now rewrite length_map, length_seq. Qed.

Lemma script_grid_values : script_grid = [100; 1000; 10000; 100000]%Z.
Proof. exact GridFacts.grid_Ns_100000. Qed.

(** C6: the sequence of units is produced on demand. After [k] requests to
    the generator returned by [benchmark_cases(X, y)] (none at all: just the
    call), the heap log has grown only by estimator constructions, one per
    yielded unit and in yield order, each the construction of the object
    bound into that unit; no [fit] has run; and [k] requests yield
    [min k (4 * number of variants)] units. *)
Theorem benchmark_cases_on_demand :
  forall (cfg : script_cfg) (Row Label : Type) (X : list Row) (y : list Label)
         (st : store) (k : nat),
  let '(st', us, _) := drive cfg script_grid st (benchmark_cases X y) k in
  List.length us = Nat.min k (4 * List.length (variants cfg)) /\
  exists new, log st' = log st ++ new /\
    Forall2 (fun e u => exists p, e = EConstruct (d_target u) (est_cls cfg) p) new us.
Proof.
  intros cfg Row Label X y st k.
  pose proof (drive_spec cfg script_grid st (benchmark_cases X y) k I) as H.
  destruct (drive cfg script_grid st (benchmark_cases X y) k) as [[st' us] g'].
  destruct H as (Hlen & _ & _ & Hnew & _).
  split; [|exact Hnew].
  rewrite Hlen. cbn [remaining benchmark_cases g_frame]. now rewrite script_grid_length.
Qed.

(** C9: with data of [n_samples = 100_000] rows, every unit yielded by
    [benchmark_cases] carries a sample count [1 <= N <= n_samples] (the grid
    is [100, 1000, 10000, 100000]) and its bound slices [X[:N, :]] and
    [y[:N]] have exactly [N] rows. *)
Theorem benchmark_cases_prefix_in_bounds :
  forall (cfg : script_cfg) (Row Label : Type) (X : list Row) (y : list Label)
         (st : store) (k : nat),
  List.length X = Z.to_nat n_samples ->
  List.length y = Z.to_nat n_samples ->
  script_grid = [100; 1000; 10000; 100000]%Z /\
  let '(_, us, _) := drive cfg script_grid st (benchmark_cases X y) k in
  Forall (fun u => exists N,
            hd_error (d_tags u) = Some ("N", VInt N) /\
            (1 <= N <= n_samples)%Z /\
            List.length (d_X u) = Z.to_nat N /\
            List.length (d_y u) = Z.to_nat N) us.
Proof.
  intros cfg Row Label X y st k HX Hy.
  split; [exact script_grid_values|].
  pose proof (drive_spec cfg script_grid st (benchmark_cases X y) k I) as H.
  destruct (drive cfg script_grid st (benchmark_cases X y) k) as [[st' us] g'].
  destruct H as (_ & _ & _ & _ & Hall).
  eapply Forall_impl; [|exact Hall].
  intros u (N & v & HN & _ & Htg & HuX & Huy).
  assert (HB : (1 <= N <= n_samples)%Z).
  { apply GridFacts.grid_Ns_bounds with (n := n_samples); [unfold n_samples; lia|exact HN]. }
  exists N. rewrite Htg. split; [reflexivity|]. split; [exact HB|].
  simpl in HuX, Huy. rewrite HuX, Huy.
  split; apply py_prefix_length; lia.
Qed.

(** C10: each yielded unit is bound to its own estimator: the targets are
    pairwise distinct, the [i]-th unit's target is the [i]-th object created
    during the requests (none existed before), and calling a unit [r] times
    fits that same object [r] times. *)
Theorem estimator_fresh_per_grid_point :
  forall (cfg : script_cfg) (Row Label : Type) (X : list Row) (y : list Label)
         (st : store) (k : nat),
  let '(st', us, _) := drive cfg script_grid st (benchmark_cases X y) k in
  NoDup (map d_target us) /\
  map d_target us = seq (next_id st) (List.length us) /\
  next_id st' = next_id st + List.length us /\
  Forall (fun u => forall (st0 : store) (r : nat),
            log (invoke_n st0 u r)
            = log st0 ++ repeat (EFit (d_target u) (List.length (d_X u))) r) us.
Proof.
  intros cfg Row Label X y st k.
  pose proof (drive_spec cfg script_grid st (benchmark_cases X y) k I) as H.
  destruct (drive cfg script_grid st (benchmark_cases X y) k) as [[st' us] g'].
  destruct H as (_ & Hids & Hnext & _ & _).
  split; [rewrite Hids; apply seq_NoDup|].
  split; [exact Hids|]. split; [exact Hnext|].
  apply Forall_forall. intros u _ st0 r. apply invoke_n_log.
Qed.

(** Witness of C9: the binary HGBT run on [make_classification]-shaped data,
    all eight units requested. *)
Lemma benchmark_cases_prefix_in_bounds_witness :
  let X := repeat [0%Z] (Z.to_nat n_samples) in
  let y := repeat 0%Z (Z.to_nat n_samples) in
  List.length X = Z.to_nat n_samples /\ List.length y = Z.to_nat n_samples /\
  (script_grid = [100; 1000; 10000; 100000]%Z /\
   let '(_, us, _) := drive hgbt_cfg script_grid (mkStore 0 []) (benchmark_cases X y) 8 in
   Forall (fun u => exists N,
             hd_error (d_tags u) = Some ("N", VInt N) /\
             (1 <= N <= n_samples)%Z /\
             List.length (d_X u) = Z.to_nat N /\
             List.length (d_y u) = Z.to_nat N) us).
Proof.
  intros X y.
  split; [apply Nat.eqb_eq; vm_compute; reflexivity|].
  split; [apply Nat.eqb_eq; vm_compute; reflexivity|].
  apply (benchmark_cases_prefix_in_bounds hgbt_cfg (list Z) Z X y (mkStore 0 []) 8);
    apply Nat.eqb_eq; vm_compute; reflexivity.
Defined.

End Claims.

Module ScriptClaims.
Import Script Scripts.

(** Run a script to its final state and provide that state. *)
Ltac run_final_state :=
  lazymatch goal with
  | |- exists st, run_script ?s0 ?ss = Some st /\ _ =>
      let r := eval vm_compute in (run_script s0 ss) in
      lazymatch r with Some ?v => exists v; split; [vm_compute; reflexivity|] end
  end.

(** C7: in each script the saved DataFrame is written exactly once, by the
    last effect of the run, so nothing mutates it afterwards; it is a fresh
    object (the [pd.concat] result) and every benchmark run produced its
    own fresh DataFrame: three distinct DataFrame objects in all. *)
Theorem result_table_written_once :
  forall omp : Z,
  Forall (fun '(ss, path) =>
            exists st,
              run_script (init_state omp) ss = Some st /\
              exists pre id,
              trace st = pre ++ [WriteParquet path id] /\
              forallb (fun e => negb (is_write e)) pre = true /\
              In (NewTable id) pre /\
              NoDup (new_table_ids (trace st)) /\
              List.length (new_table_ids (trace st)) = 3)
         [(hgbt_script, "bench_loss_module_hgbt.parquet");
          (logistic_script, "bench_loss_module_logistic.parquet")].
Proof.
  intros omp.
  apply Forall_cons; [|apply Forall_cons; [|apply Forall_nil]]; cbv beta iota; run_final_state;
    match goal with |- exists pre id, trace ?st = _ /\ _ =>
      exists (removelast (trace st)), 2 end;
    vm_compute;
    (split; [reflexivity|]); (split; [reflexivity|]);
    (split; [tauto|]);
    (split; [repeat constructor; simpl; lia|reflexivity]).
Qed.

(** C8 (as stated, refuted): the HGBT script does not query the effective
    OpenMP thread count once; it queries it twice (line 18 prints it, line 19
    stores it). *)
Lemma threads_query_once_counterexample :
  ~ (exists st, run_script (init_state 8) hgbt_script = Some st /\
                List.length (filter is_threads_query (trace st)) = 1).
Proof.
  intros (st & Hrun & Hcount).
  vm_compute in Hrun. injection Hrun as <-.
  vm_compute in Hcount. discriminate.
Qed.

(** C8 (amended): each script queries the effective OpenMP thread count
    twice, once to print it and once to store it in [n_threads]; the saved
    table's [n_threads] column holds that value; the run never reconfigures
    the thread pool, which ends as it started. *)
Theorem n_threads_read_only :
  forall omp : Z,
  Forall (fun ss =>
            exists st,
              run_script (init_state omp) ss = Some st /\
              List.length (filter is_threads_query (trace st)) = 2 /\
              column_of st "df" "n_threads" = Some (PInt omp) /\
              forallb (fun e => negb (is_set_threads e)) (trace st) = true /\
              omp_threads st = omp)
         [hgbt_script; logistic_script].
Proof.
  intros omp.
  apply Forall_cons; [|apply Forall_cons; [|apply Forall_nil]]; cbv beta iota; run_final_state;
    vm_compute; repeat split.
Qed.

End ScriptClaims.

(** ** Further properties of [benchmark_cases] and of the grid *)
Module ExtraFacts.
Import Gen GenFacts Order.

Section Facts.
Context (cfg : script_cfg) (grid : list Z) {Row Label : Type}.

Lemma outer_loop_pairs (outer : list Z) :
  match outer_loop cfg outer with
  | Some (N, v, f') => loop_pairs cfg outer = (N, v) :: yield_pairs cfg grid f'
  | None => loop_pairs cfg outer = []
  end.
Proof.
  induction outer as [|N outer IH]; [reflexivity|].
  change (loop_pairs cfg (N :: outer))
    with (map (fun v => (N, v)) (variants cfg) ++ loop_pairs cfg outer).
  simpl. destruct (variants cfg) as [|v inner]; [exact IH|reflexivity].
Qed.

Lemma resume_pairs (f : frame) :
  match resume cfg grid f with
  | Some (N, v, f') => yield_pairs cfg grid f = (N, v) :: yield_pairs cfg grid f'
  | None => yield_pairs cfg grid f = []
  end.
Proof.
  destruct f as [|N [|v inner] outer|]; simpl.
  - apply outer_loop_pairs.
  - apply outer_loop_pairs.
  - reflexivity.
  - reflexivity.
Qed.


Lemma drive_finished (st : store) (X : list Row) (y : list Label) (j : nat) :
  drive cfg grid st (mkGen X y Finished) j = (st, [], mkGen X y Finished).
Proof. destruct j; reflexivity. Qed.

(** [k] requests give the first [k] body runs of the nested loops. *)
Lemma drive_order (st : store) (g : generator Row Label) (k : nat) :
  let '(_, us, g') := drive cfg grid st g k in
  map d_tags us = firstn k (map (pair_tags cfg) (yield_pairs cfg grid (g_frame g))) /\
  g_X g' = g_X g /\ g_y g' = g_y g /\
  (List.length (yield_pairs cfg grid (g_frame g)) < k -> g_frame g' = Finished).
Proof.
  revert st g. induction k as [|k IH]; intros st g; simpl.
  - repeat split; auto. lia.
  - pose proof (resume_pairs (g_frame g)) as Hp.
    unfold gen_next. destruct (resume cfg grid (g_frame g)) as [[[N v] f']|].
    + specialize (IH (fst (construct st (est_cls cfg) (est_params cfg v)))
                     (mkGen (g_X g) (g_y g) f')).
      simpl in IH |- *.
      destruct (drive cfg grid _ (mkGen (g_X g) (g_y g) f') k) as [[st2 us] g2].
      destruct IH as (Hord & HX & Hy & Hfin).
      rewrite Hp. simpl. rewrite Hord.
      repeat split; auto. intros Hlt. apply Hfin. simpl in Hlt. lia.
    + rewrite Hp. simpl. repeat split; auto.
Qed.



End Facts.

Lemma yield_pairs_length (cfg : script_cfg) (grid : list Z) :
  List.length (yield_pairs cfg grid Start) = List.length grid * List.length (variants cfg).
Proof.
  simpl. unfold loop_pairs. induction grid as [|N grid IH]; [reflexivity|].
  simpl. rewrite length_app, length_map, IH. reflexivity.
Qed.





End ExtraFacts.

(** ** Further properties, as recorded *)
Module Extras.
Import Gen GenFacts Order ExtraFacts.

Lemma script_grid_eq : script_grid = [100; 1000; 10000; 100000]%Z.
Proof. exact GridFacts.grid_Ns_100000. Qed.

(** [k] requests to [benchmark_cases(X, y)] yield the first [k] units of the
    nested loops, in loop order: [N] over [100, 1000, 10000, 100000] outside,
    the variant inside, each unit tagged [N] then the variant. *)
Theorem benchmark_cases_yield_order :
  forall (cfg : script_cfg) (Row Label : Type) (X : list Row) (y : list Label)
         (st : store) (k : nat),
  let '(_, us, _) := drive cfg script_grid st (benchmark_cases X y) k in
  map d_tags us =
  firstn k (map (pair_tags cfg) (loop_pairs cfg [100; 1000; 10000; 100000]%Z)).
Proof.
  intros cfg Row Label X y st k.
  pose proof (drive_order cfg script_grid st (benchmark_cases X y) k) as H.
  destruct (drive cfg script_grid st (benchmark_cases X y) k) as [[st' us] g'].
  destruct H as [Hord _]. rewrite Hord. cbn [benchmark_cases g_frame yield_pairs].
  now rewrite script_grid_eq.
Qed.

(** Once a request has hit [StopIteration] (one request past the
    [4 * number of variants] units), the generator stays exhausted: further
    requests yield nothing and construct no estimator. *)
Theorem benchmark_cases_stays_exhausted :
  forall (cfg : script_cfg) (Row Label : Type) (X : list Row) (y : list Label)
         (st : store),
  let '(st1, us, g1) :=
    drive cfg script_grid st (benchmark_cases X y) (S (4 * List.length (variants cfg))) in
  List.length us = 4 * List.length (variants cfg) /\
  forall j, drive cfg script_grid st1 g1 j = (st1, [], g1).
Proof.
  intros cfg Row Label X y st.
  set (k := S (4 * List.length (variants cfg))).
  pose proof (drive_order cfg script_grid st (benchmark_cases X y) k) as H.
  pose proof (drive_spec cfg script_grid st (benchmark_cases X y) k I) as H2.
  destruct (drive cfg script_grid st (benchmark_cases X y) k) as [[st1 us] g1].
  destruct H as (_ & HX & Hy & Hfin). destruct H2 as (Hlen & _).
  assert (Hl : List.length (yield_pairs cfg script_grid Start) = 4 * List.length (variants cfg)).
  { rewrite yield_pairs_length, Claims.script_grid_length. reflexivity. }
  split.
  - rewrite Hlen. cbn [remaining benchmark_cases g_frame].
    rewrite Claims.script_grid_length. unfold k. lia.
  - intros j. destruct g1 as [X1 y1 f1]. simpl in HX, Hy, Hfin.
    rewrite Hfin by (simpl in Hl |- *; unfold k; lia).
    apply drive_finished.
Qed.



(** Every unit fits on the first [N] rows of [X] and of [y], [N] being its own
    tag; so the units of one grid point all fit on the same rows. *)
Theorem units_fit_first_N_rows :
  forall (cfg : script_cfg) (Row Label : Type) (X : list Row) (y : list Label)
         (st : store) (k : nat),
  let '(_, us, _) := drive cfg script_grid st (benchmark_cases X y) k in
  Forall (fun u => exists N,
            hd_error (d_tags u) = Some ("N", VInt N) /\
            d_X u = firstn (Z.to_nat N) X /\ d_y u = firstn (Z.to_nat N) y) us.
Proof.
  intros cfg Row Label X y st k.
  pose proof (drive_spec cfg script_grid st (benchmark_cases X y) k I) as H.
  destruct (drive cfg script_grid st (benchmark_cases X y) k) as [[st' us] g'].
  destruct H as (_ & _ & _ & _ & Hall).
  eapply Forall_impl; [|exact Hall].
  intros u (N & v & HN & _ & Htg & HuX & Huy).
  assert (HB : (1 <= N)%Z).
  { apply (GridFacts.grid_Ns_bounds n_samples N); [unfold n_samples; lia|exact HN]. }
  exists N. rewrite Htg. split; [reflexivity|].
  simpl in HuX, Huy. unfold py_prefix in HuX, Huy.
  destruct (Z.leb_spec 0 N); [|lia]. split; assumption.
Qed.







End Extras.

Module ScriptExtras.
Import Script Scripts.

Ltac final_state_of :=
  lazymatch goal with
  | |- exists st, run_script ?s0 ?ss = Some st /\ _ =>
      let r := eval vm_compute in (run_script s0 ss) in
      lazymatch r with Some ?v => exists v; split; [vm_compute; reflexivity|] end
  end.

(** The saved DataFrame is [pd.concat] of the binary run's table followed by
    the multiclass run's table. The binary table carries the script's
    estimator name and [n_classes = 2], the multiclass one the same name and
    [n_classes = 10], and the saved table adds [n_threads]. *)
Theorem saved_table_structure :
  forall omp : Z,
  Forall (fun '(ss, cls, bin, multi) =>
            exists st,
              run_script (init_state omp) ss = Some st /\
              exists b m d,
                table_of st bin = Some b /\ table_of st multi = Some m /\
                table_of st "df" = Some d /\
                lookup_tbl b (tables st)
                = Some (mkTable (FromBench 0) [("estimator", PStr cls); ("n_classes", PInt 2)]) /\
                lookup_tbl m (tables st)
                = Some (mkTable (FromBench 1) [("estimator", PStr cls); ("n_classes", PInt 10)]) /\
                lookup_tbl d (tables st)
                = Some (mkTable (FromConcat [b; m]) [("n_threads", PInt omp)]))
         [(hgbt_script, "HistGradientBoostingClassifier", "df_hgbt_binary", "df_hgbt_multi");
          (logistic_script, "LogisticRegression", "df_logistic_binary", "df_logistic_multi")].
Proof.
  intros omp.
  apply Forall_cons; [|apply Forall_cons; [|apply Forall_nil]]; cbv beta iota;
    final_state_of; exists 0, 1, 2; vm_compute; repeat split.
Qed.

End ScriptExtras.
